(** * db1000n: the DNS-blast job adapter, the raw connection provider and
    the fallback [Restart]

  Shallow embedding of
    - [src/jobs/dnsblast.go]      (package [jobs],      [dnsBlastJob])
    - [src/utils/ota/restart.go]  (package [ota],       [Restart] for the
                                   platforms without a restart mechanism)
    - the [packetgen] connection file ([ConnectionConfig],
                                   [OpenRawConnection])

  Go values are modelled as follows: [string] as [String.string], [int] and
  [time.Duration] as [Z] (the product that builds the duration wraps at 64
  bits), [[]string] as [list string], an [error] or interface value that may
  be [nil] as an [option].  The collaborators that are not part of these
  files (the decoder, the engine, the socket layer) are section variables. *)

From Stdlib Require Import ZArith String List Bool Lia.
Import ListNotations.

Local Open Scope string_scope.
Local Open Scope Z_scope.

(* ------------------------------------------------------------------ *)
(** ** Go errors *)

Module errors.

(** The two shapes of error value the code builds: a plain message
    ([errors.New], [fmt.Errorf] without [%w]) and a message around a cause
    ([fmt.Errorf] with [%w]). *)
Inductive error : Type :=
| errorString (s : string)
| wrapError (msg : string) (err : error).

Definition Error (e : error) : string :=
  match e with
  | errorString s => s
  | wrapError msg _ => msg
  end.

Definition Unwrap (e : error) : option error :=
  match e with
  | errorString _ => None
  | wrapError _ cause => Some cause
  end.

Definition New (text : string) : error := errorString text.

Fixpoint error_eqb (a b : error) : bool :=
  match a, b with
  | errorString s, errorString t => String.eqb s t
  | wrapError m c, wrapError n d => String.eqb m n && error_eqb c d
  | _, _ => false
  end.

(** [errors.Is]: the target is the error itself or is met along the
    [Unwrap] chain. *)
Fixpoint Is (err target : error) : bool :=
  error_eqb err target ||
  match err with
  | errorString _ => false
  | wrapError _ cause => Is cause target
  end.

End errors.

Module fmt.
Import errors.

(** [%v] of a [[]string]: the elements between brackets, one space apart. *)
Definition Sprint_strings (l : list string) : string :=
  "[" ++ String.concat " " l ++ "]".

(** [fmt.Errorf(prefix + "%w", err)]. *)
Definition Errorf_w (prefix : string) (err : error) : error :=
  wrapError (prefix ++ Error err) err.

(** [fmt.Errorf(prefix + "%v" + suffix, l)] for a list of strings. *)
Definition Errorf_v (prefix : string) (l : list string) (suffix : string)
  : error :=
  errorString (prefix ++ Sprint_strings l ++ suffix).

(** [fmt.Errorf(prefix + "%s" + suffix, s)]. *)
Definition Errorf_s (prefix s suffix : string) : error :=
  errorString (prefix ++ s ++ suffix).

End fmt.

(* ------------------------------------------------------------------ *)
(** ** Package [core/dnsblast]: what the adapter uses of the engine *)

Module dnsblast.

(** Modelled from the spec: the three protocol names are constants of the
    engine package [core/dnsblast], which is not among the source files.
    The spec's configuration keys (and the comment on the [Protocol] field
    of [dnsBlastConfig]) give them as [udp], [tcp] and [tcp-tls]. *)
Definition UDPProtoName : string := "udp".
Definition TCPProtoName : string := "tcp".
Definition TCPTLSProtoName : string := "tcp-tls".

(** The engine configuration, with the fields the adapter fills in.
    [Delay] is a [time.Duration]: a signed 64-bit count of nanoseconds. *)
Record Config : Type := {
  RootDomain : string;
  Protocol : string;
  SeedDomains : list string;
  ParallelQueries : Z;
  Delay : Z;
  ClientID : string
}.

(** What a call of [dnsblast.Start] can do as seen by its caller: hand back
    an error value (possibly [nil]) or panic. *)
Inductive StartResult : Type :=
| Returns (err : option errors.error)
| Panics.

End dnsblast.

Module time.

Definition Millisecond : Z := 1000000.

(** Signed 64-bit wrap-around of Go's integer arithmetic. *)
Definition wrap64 (z : Z) : Z := (z + 2 ^ 63) mod 2 ^ 64 - 2 ^ 63.

(** [time.Duration(n) * time.Millisecond]. *)
Definition Duration_ms (n : Z) : Z := wrap64 (n * Millisecond).

End time.

(* ------------------------------------------------------------------ *)
(** ** Packages [os] and [net]: the errors of a failed open *)

Module os.
Import errors.

(** [os.NewSyscallError(syscall, err)]: the message is the name of the
    system call, a colon and the message of the error number; [Unwrap]
    gives the error number. *)
Definition SyscallError (syscall : string) (err : error) : error :=
  wrapError (syscall ++ ": " ++ Error err) err.

End os.

Module net.
Import errors.

(** [&net.OpError{Op: op, Net: network, Source: nil, Addr: addr, Err: err}],
    with [addr] the text of the address ([None] for a nil [Addr]).  Its
    [Error()] is the operation, then the network and the address each after
    a space when present, then a colon and the message of [Err]; its
    [Unwrap()] is [Err]. *)
Definition OpError (op network : string) (addr : option string) (err : error)
  : error :=
  wrapError
    (op
     ++ (if (network =? "")%string then "" else " " ++ network)
     ++ match addr with Some a => " " ++ a | None => "" end
     ++ ": " ++ Error err)
    err.

Section Listen.

(** What lies under [net.ListenPacket]: the resolution of the address and
    the system calls that open and bind the socket.  It gives a connection,
    or fails with the underlying error and, when the address had been
    resolved, the text of the resolved address. *)
Variable net_PacketConn : Type.
Variable sys_listen :
  string -> string -> net_PacketConn + (option string * error).

(** [net.ListenPacket]: every failure comes back as an [OpError] of the
    operation [listen] around the underlying error. *)
Definition ListenPacket (network address : string) : net_PacketConn + error :=
  match sys_listen network address with
  | inl c => inl c
  | inr (la, err) => inr (OpError "listen" network la err)
  end.

End Listen.

End net.

(* ------------------------------------------------------------------ *)
(** ** Package [packetgen]: the raw connection provider *)

Module packetgen.
Import errors.

(** ConnectionConfig describes which network to use when sending packets. *)
Record ConnectionConfig : Type := {
  Name : string;
  Address : string
}.

(** [*ipv6.PacketConn]: the wrapper [ipv6.NewPacketConn] puts around a
    [net.PacketConn]. *)
Inductive ipv6_PacketConn (net_PacketConn : Type) : Type :=
| NewPacketConn (c : net_PacketConn).

Arguments NewPacketConn {net_PacketConn} c.

Section Provider.

(** The operating system's sockets: [net.ListenPacket network address]
    gives a connection or fails. *)
Variable net_PacketConn : Type.
Variable ListenPacket : string -> string -> net_PacketConn + error.

Definition OpenRawConnection (c : ConnectionConfig)
  : option (ipv6_PacketConn net_PacketConn) * option error :=
  match ListenPacket (Name c) (Address c) with
  | inr err => (None, Some err)
  | inl packetConn => (Some (NewPacketConn packetConn), None)
  end.

End Provider.

End packetgen.

(* ------------------------------------------------------------------ *)
(** ** Package [ota]: [Restart] where no restart mechanism exists *)

Module ota.
Import errors.

(** The build constraint of the file, [!linux && !darwin && !windows],
    read on the name of the operating system alone. *)
Definition build_constraint (GOOS : string) : bool :=
  negb (GOOS =? "linux")%string
  && negb (GOOS =? "darwin")%string
  && negb (GOOS =? "windows")%string.

(** Whether a build tag holds for an operating system: the tag that is its
    name, and as Go has it also [linux] on android and [darwin] on ios. *)
Definition tag_holds (tag GOOS : string) : bool :=
  (GOOS =? tag)%string
  || ((tag =? "linux") && (GOOS =? "android"))%string
  || ((tag =? "darwin") && (GOOS =? "ios"))%string.

(** The platforms on which the file is compiled: those where none of the
    three tags of its constraint holds. *)
Definition file_built (GOOS : string) : bool :=
  negb (tag_holds "linux" GOOS)
  && negb (tag_holds "darwin" GOOS)
  && negb (tag_holds "windows" GOOS).

(** What a restart would do to the process; the function below does none of
    it. *)
Inductive Effect : Type :=
| Exec (argv : list string)
| Exit (code : Z).

(** [Restart], with [runtime.GOOS] as a parameter: the error it returns and
    the effects it has on the process. *)
Definition Restart (GOOS : string) (extraArgs : list string)
  : option error * list Effect :=
  (Some (fmt.Errorf_s "restart on the " GOOS " system is not available"), []).

End ota.

(* ------------------------------------------------------------------ *)
(** ** Package [jobs]: the DNS-blast job adapter *)

Module jobs.
Import errors.

Definition defaultProto : string := dnsblast.UDPProtoName.
Definition defaultParallelQueriesPerCycle : Z := 5.
Definition defaultIntervalInMS : Z := 10.

(** The embedded [BasicJobConfig] is declared in another file of the package;
    the adapter reads and writes its [IntervalMs] field only. *)
Record BasicJobConfig : Type := {
  IntervalMs : Z
}.

Record dnsBlastConfig : Type := {
  Basic : BasicJobConfig;
  RootDomain : string;
  Protocol : string;
  SeedDomains : list string;
  ParallelQueries : Z
}.

(** [GlobalConfig] is declared in another file; the adapter reads its
    [ClientID]. *)
Record GlobalConfig : Type := {
  ClientID : string
}.

(** Field assignments [jobConfig.F = v]. *)
Definition set_Protocol (c : dnsBlastConfig) (v : string) : dnsBlastConfig :=
  {| Basic := Basic c; RootDomain := RootDomain c; Protocol := v;
     SeedDomains := SeedDomains c; ParallelQueries := ParallelQueries c |}.

Definition set_ParallelQueries (c : dnsBlastConfig) (v : Z) : dnsBlastConfig :=
  {| Basic := Basic c; RootDomain := RootDomain c; Protocol := Protocol c;
     SeedDomains := SeedDomains c; ParallelQueries := v |}.

Definition set_IntervalMs (c : dnsBlastConfig) (v : Z) : dnsBlastConfig :=
  {| Basic := {| IntervalMs := v |}; RootDomain := RootDomain c;
     Protocol := Protocol c; SeedDomains := SeedDomains c;
     ParallelQueries := ParallelQueries c |}.

(** *** The activation frame of [dnsBlastJob]

    The function has named results [data] and [err], two deferred calls and
    early returns, and the engine it calls may panic.  A frame holds the
    named results and the trace of what the call has done so far; a
    statement transforms the frame and says how control leaves it. *)

Inductive Event : Type :=
| EvStart (cfg : dnsblast.Config)   (* dnsblast.Start(ctx, logger, &wg, cfg) *)
| EvWait                            (* wg.Wait() *)
| EvRecovered                       (* the deferred handler caught a panic *)
| EvCancel.                         (* the deferred cancel() *)

Record Frame (any : Type) : Type := {
  data : option any;
  err : option error;
  trace : list Event
}.

Arguments data {any} f.
Arguments err {any} f.
Arguments trace {any} f.

Inductive Flow (A : Type) : Type :=
| Next (a : A)      (* control goes on to the next statement *)
| Return            (* a return statement has set the results *)
| Panic.            (* the goroutine is panicking *)

Arguments Next {A} a.
Arguments Return {A}.
Arguments Panic {A}.

Definition Stmt (any A : Type) : Type := Frame any -> Flow A * Frame any.

Section Statements.

Variable any : Type.

Definition next {A} (a : A) : Stmt any A := fun f => (Next a, f).

Definition bind {A B} (s : Stmt any A) (k : A -> Stmt any B) : Stmt any B :=
  fun f =>
    match s f with
    | (Next a, f') => k a f'
    | (Return, f') => (Return, f')
    | (Panic, f') => (Panic, f')
    end.

(** [return d, e]: the named results are set and control leaves the body. *)
Definition return_ {A} (d : option any) (e : option error) : Stmt any A :=
  fun f => (Return, {| data := d; err := e; trace := trace f |}).

(** [err = e]: assignment to the named result. *)
Definition set_err (e : option error) : Stmt any unit :=
  fun f => (Next tt, {| data := data f; err := e; trace := trace f |}).

Definition get_err : Stmt any (option error) := fun f => (Next (err f), f).

Definition emit (ev : Event) : Stmt any unit :=
  fun f => (Next tt,
            {| data := data f; err := err f; trace := trace f ++ [ev] |}).

End Statements.

Arguments next {any A} a.
Arguments bind {any A B} s k.
Arguments return_ {any A} d e.
Arguments set_err {any} e.
Arguments get_err {any}.
Arguments emit {any} ev.

Notation "x <- s ;; k" := (bind s (fun x => k))
  (at level 61, s at next level, right associativity).
Notation "s ;; k" := (bind s (fun _ => k))
  (at level 61, right associativity).

(** *** [dnsBlastJob] *)

Section Job.

(** The collaborators: the type of result payloads ([interface{}]), the
    argument map and its decoder [utils.Decode] (which fills a
    [dnsBlastConfig] or fails), and the engine's [dnsblast.Start]. *)
Variable any : Type.
Variable Args : Type.
Variable Decode : Args -> dnsBlastConfig + error.
Variable Start : dnsblast.Config -> dnsblast.StartResult.

(** The call [err = dnsblast.Start(...)]. *)
Definition call_Start (cfg : dnsblast.Config) : Stmt any unit :=
  fun f =>
    let f' := {| data := data f; err := err f;
                 trace := trace f ++ [EvStart cfg] |} in
    match Start cfg with
    | dnsblast.Returns e =>
        (Next tt, {| data := data f'; err := e; trace := trace f' |})
    | dnsblast.Panics => (Panic, f')
    end.

(** The [switch] that settles the protocol. *)
Definition settle_protocol (jobConfig : dnsBlastConfig)
  : Stmt any dnsBlastConfig :=
  let isUDPProto := (Protocol jobConfig =? dnsblast.UDPProtoName)%string in
  let isTCPProto := (Protocol jobConfig =? dnsblast.TCPProtoName)%string in
  let isTCPTLSProto :=
    (Protocol jobConfig =? dnsblast.TCPTLSProtoName)%string in
  if (Protocol jobConfig =? "")%string then
    next (set_Protocol jobConfig defaultProto)
  else if negb (isUDPProto || negb isTCPProto || negb isTCPTLSProto) then
    return_ None
      (Some (fmt.Errorf_v
               "unrecognized DNS protocol [provided], expected one of ["
               [dnsblast.UDPProtoName; dnsblast.TCPProtoName;
                dnsblast.TCPTLSProtoName]
               "]"))
  else
    next jobConfig.

(** The statements of the function body, from the decoding to the last
    [return]. *)
Definition dnsBlastJob_body (globalConfig : GlobalConfig) (args : Args)
  : Stmt any unit :=
  match Decode args with
  | inr e =>
      set_err (Some e) ;;
      return_ None
        (Some (fmt.Errorf_w
                 "failed to parse DNS Blast job configurations: " e))
  | inl jobConfig =>
      set_err None ;;
      (* Root domain verification *)
      if (String.length (RootDomain jobConfig) =? 0)%nat then
        return_ None
          (Some (New "no root domain provided, consider adding it"))
      (* Domain seeds verification *)
      else if (List.length (SeedDomains jobConfig) =? 0)%nat then
        return_ None
          (Some (New "no seed domains provided, at least one is required"))
      else
        (* Protocol settlement *)
        jobConfig <- settle_protocol jobConfig ;;
        (* Concurrency validation *)
        let jobConfig :=
          if ParallelQueries jobConfig =? 0
          then set_ParallelQueries jobConfig defaultParallelQueriesPerCycle
          else jobConfig in
        (* Delay validation *)
        let jobConfig :=
          if IntervalMs (Basic jobConfig) =? 0
          then set_IntervalMs jobConfig defaultIntervalInMS
          else jobConfig in
        call_Start
          {| dnsblast.RootDomain := RootDomain jobConfig;
             dnsblast.Protocol := Protocol jobConfig;
             dnsblast.SeedDomains := SeedDomains jobConfig;
             dnsblast.ParallelQueries := ParallelQueries jobConfig;
             dnsblast.Delay :=
               time.Duration_ms (IntervalMs (Basic jobConfig));
             dnsblast.ClientID := ClientID globalConfig |} ;;
        emit EvWait ;;
        e <- get_err ;;
        return_ None e
  end.

(** Modelled from the spec: [utils.PanicHandler] is not among the source
    files.  The spec's panic-recovery boundary catches an unexpected fault
    and logs it, and the call then returns normally.  The handler is
    deferred with the logger as its only argument, so it cannot touch the
    named results: they are returned as the panic found them. *)
Definition PanicHandler (fl : Flow unit) : Stmt any unit :=
  match fl with
  | Panic => emit EvRecovered
  | _ => next tt
  end.

(** The deferred [cancel()] of the derived context. *)
Definition cancel : Stmt any unit := emit EvCancel.

(** The whole call: named results start as [nil], the body runs, then the
    deferred calls run last-in first-out. *)
Definition dnsBlastJob (globalConfig : GlobalConfig) (args : Args)
  : Frame any :=
  let entry := {| data := None; err := None; trace := [] |} in
  let '(fl, f) := dnsBlastJob_body globalConfig args entry in
  snd ((PanicHandler fl ;; cancel) f).

(** The engine configurations a call has started the engine with. *)
Fixpoint engine_calls (t : list Event) : list dnsblast.Config :=
  match t with
  | [] => []
  | EvStart cfg :: t' => cfg :: engine_calls t'
  | _ :: t' => engine_calls t'
  end.

End Job.

Arguments dnsBlastJob {any Args} Decode Start globalConfig args.
Arguments dnsBlastJob_body {any Args} Decode Start globalConfig args.
Arguments settle_protocol {any} jobConfig.

End jobs.

(* ------------------------------------------------------------------ *)
(** ** Concrete collaborators and configurations

    Closed instances of the section variables, and the configurations of
    the spec's scenarios, on which the definitions above can be run. *)

Module scenario.
Import errors.

(** Arguments that are the typed configuration already: decoding succeeds
    and hands it over. *)
Definition decoded (c : jobs.dnsBlastConfig) : jobs.dnsBlastConfig + error :=
  inl c.

(** Arguments that do not decode: the decoder fails with the given cause. *)
Definition undecodable (cause : error) : jobs.dnsBlastConfig + error :=
  inr cause.

(** An engine that starts its workers and reports no error. *)
Definition engine_ok (cfg : dnsblast.Config) : dnsblast.StartResult :=
  dnsblast.Returns None.

(** An engine that faults. *)
Definition engine_faulty (cfg : dnsblast.Config) : dnsblast.StartResult :=
  dnsblast.Panics.

Definition global : jobs.GlobalConfig := {| jobs.ClientID := "client-42" |}.

Definition config (protocol : string) (parallel interval : Z)
  : jobs.dnsBlastConfig :=
  {| jobs.Basic := {| jobs.IntervalMs := interval |};
     jobs.RootDomain := "example.test";
     jobs.Protocol := protocol;
     jobs.SeedDomains := ["a"; "b"];
     jobs.ParallelQueries := parallel |}.

(** Root target [example.test], seeds [a] and [b], everything else unset. *)
Definition unset : jobs.dnsBlastConfig := config "" 0 0.

Definition bogus_protocol : jobs.dnsBlastConfig := config "bogus" 0 0.

Definition negative_parallelism : jobs.dnsBlastConfig := config "" (-1) 0.

Definition no_root : jobs.dnsBlastConfig :=
  {| jobs.Basic := {| jobs.IntervalMs := 0 |};
     jobs.RootDomain := "";
     jobs.Protocol := "";
     jobs.SeedDomains := ["a"; "b"];
     jobs.ParallelQueries := 0 |}.

Definition decode_cause : error :=
  errorString "'parallel_queries' expected type 'int', got 'string'".

(** The error number of a refused operation. *)
Definition EPERM : error := errorString "operation not permitted".

(** A system without the privilege for raw sockets: the address resolves
    (to the text it was given as) and the [socket] system call is
    refused. *)
Definition listen_denied (network address : string)
  : nat + (option string * error) :=
  inr (Some address, os.SyscallError "socket" EPERM).

(** A socket layer that opens every socket; the connection is its file
    descriptor. *)
Definition ListenPacket_granted (network address : string) : nat + error :=
  inl 3%nat.

Definition wildcard (network : string) : packetgen.ConnectionConfig :=
  {| packetgen.Name := network; packetgen.Address := "" |}.

End scenario.

(* ------------------------------------------------------------------ *)
(** * Properties *)

Import errors.

(** ** Errors *)

Lemma error_eqb_refl (e : error) : error_eqb e e = true.
Proof.
  induction e as [s | msg cause IH]; simpl.
  - apply String.eqb_refl.
  - now rewrite String.eqb_refl, IH.
Qed.

Lemma Is_refl (e : error) : Is e e = true.
Proof. destruct e; simpl; rewrite ?String.eqb_refl, ?error_eqb_refl; reflexivity. Qed.

Lemma Is_Errorf_w (prefix : string) (cause : error) :
  Is (fmt.Errorf_w prefix cause) cause = true.
Proof.
  unfold fmt.Errorf_w; simpl Is.
  rewrite Is_refl. apply orb_true_r.
Qed.

(** ** The job adapter *)

(** Reads of fields, through the assignments made before them. *)
Ltac fields :=
  cbn [jobs.set_Protocol jobs.set_ParallelQueries jobs.set_IntervalMs
       jobs.Basic jobs.RootDomain jobs.Protocol jobs.SeedDomains
       jobs.ParallelQueries jobs.IntervalMs
       jobs.data jobs.err jobs.trace] in *.

Section DnsBlastJobFacts.

Variable any : Type.
Variable Args : Type.
Variable Decode : Args -> jobs.dnsBlastConfig + error.
Variable Start : dnsblast.Config -> dnsblast.StartResult.

Local Abbreviation job := (@jobs.dnsBlastJob any Args Decode Start).
Local Abbreviation calls f := (jobs.engine_calls (jobs.trace f)).

(** The frame a call ends with once the engine has been started with
    [cfg]. *)
Local Abbreviation engine_run cfg :=
  (match Start cfg with
   | dnsblast.Returns e =>
       {| jobs.data := @None any; jobs.err := e;
          jobs.trace := [jobs.EvStart cfg; jobs.EvWait; jobs.EvCancel] |}
   | dnsblast.Panics =>
       {| jobs.data := @None any; jobs.err := None;
          jobs.trace := [jobs.EvStart cfg; jobs.EvRecovered; jobs.EvCancel] |}
   end).

(** The rejecting case of the protocol switch asks for a protocol that is
    at once [tcp] and [tcp-tls]: no string satisfies it. *)
Lemma reject_condition_false (p : string) :
  negb ((p =? dnsblast.UDPProtoName)%string
        || negb (p =? dnsblast.TCPProtoName)%string
        || negb (p =? dnsblast.TCPTLSProtoName)%string) = false.
Proof.
  destruct (String.eqb_spec p dnsblast.TCPProtoName) as [-> | _].
  - reflexivity.
  - simpl. now rewrite orb_true_r.
Qed.

Lemma settle_protocol_next (jc : jobs.dnsBlastConfig) (f : jobs.Frame any) :
  jobs.settle_protocol jc f =
  (jobs.Next (if (jobs.Protocol jc =? "")%string
              then jobs.set_Protocol jc jobs.defaultProto else jc), f).
Proof.
  unfold jobs.settle_protocol.
  rewrite reject_condition_false.
  now destruct (jobs.Protocol jc =? "")%string.
Qed.

Lemma length_zero_string (s : string) :
  (String.length s =? 0)%nat = true <-> s = "".
Proof.
  destruct s; simpl; split; intro H; try reflexivity; discriminate.
Qed.

Lemma length_zero_list {A} (l : list A) :
  (List.length l =? 0)%nat = true <-> l = [].
Proof.
  destruct l; simpl; split; intro H; try reflexivity; discriminate.
Qed.

(** A failed decode: the wrapped cause comes back and nothing else runs. *)
Lemma job_undecodable (g : jobs.GlobalConfig) (args : Args) (cause : error) :
  Decode args = inr cause ->
  job g args =
  {| jobs.data := None;
     jobs.err :=
       Some (fmt.Errorf_w "failed to parse DNS Blast job configurations: "
                          cause);
     jobs.trace := [jobs.EvCancel] |}.
Proof.
  intro H. unfold jobs.dnsBlastJob, jobs.dnsBlastJob_body.
  rewrite H. reflexivity.
Qed.

Lemma job_no_root (g : jobs.GlobalConfig) (args : Args)
      (jc : jobs.dnsBlastConfig) :
  Decode args = inl jc ->
  jobs.RootDomain jc = "" ->
  job g args =
  {| jobs.data := None;
     jobs.err := Some (New "no root domain provided, consider adding it");
     jobs.trace := [jobs.EvCancel] |}.
Proof.
  intros H Hr. unfold jobs.dnsBlastJob, jobs.dnsBlastJob_body.
  rewrite H, Hr. reflexivity.
Qed.

Lemma job_no_seeds (g : jobs.GlobalConfig) (args : Args)
      (jc : jobs.dnsBlastConfig) :
  Decode args = inl jc ->
  jobs.RootDomain jc <> "" ->
  jobs.SeedDomains jc = [] ->
  job g args =
  {| jobs.data := None;
     jobs.err :=
       Some (New "no seed domains provided, at least one is required");
     jobs.trace := [jobs.EvCancel] |}.
Proof.
  intros H Hr Hs. unfold jobs.dnsBlastJob, jobs.dnsBlastJob_body.
  rewrite H, Hs.
  destruct (String.length (jobs.RootDomain jc) =? 0)%nat eqn:E.
  - apply length_zero_string in E. contradiction.
  - reflexivity.
Qed.

(** A configuration with a root domain and seeds always reaches the engine,
    with the fields defaulted where they were zero. *)
Lemma job_reaches_engine (g : jobs.GlobalConfig) (args : Args)
      (jc : jobs.dnsBlastConfig) :
  Decode args = inl jc ->
  jobs.RootDomain jc <> "" ->
  jobs.SeedDomains jc <> [] ->
  let cfg :=
    {| dnsblast.RootDomain := jobs.RootDomain jc;
       dnsblast.Protocol :=
         if (jobs.Protocol jc =? "")%string
         then jobs.defaultProto else jobs.Protocol jc;
       dnsblast.SeedDomains := jobs.SeedDomains jc;
       dnsblast.ParallelQueries :=
         if jobs.ParallelQueries jc =? 0
         then jobs.defaultParallelQueriesPerCycle
         else jobs.ParallelQueries jc;
       dnsblast.Delay :=
         time.Duration_ms
           (if jobs.IntervalMs (jobs.Basic jc) =? 0
            then jobs.defaultIntervalInMS
            else jobs.IntervalMs (jobs.Basic jc));
       dnsblast.ClientID := jobs.ClientID g |} in
  job g args = engine_run cfg.
Proof.
  intros H Hr Hs cfg. unfold jobs.dnsBlastJob, jobs.dnsBlastJob_body.
  rewrite H.
  destruct (String.length (jobs.RootDomain jc) =? 0)%nat eqn:Er;
    [apply length_zero_string in Er; contradiction |].
  destruct (List.length (jobs.SeedDomains jc) =? 0)%nat eqn:Es;
    [apply length_zero_list in Es; contradiction |].
  cbv [jobs.bind jobs.set_err]. cbn [jobs.data jobs.err jobs.trace].
  rewrite settle_protocol_next.
  subst cfg.
  destruct (jobs.Protocol jc =? "")%string; fields;
    destruct (jobs.ParallelQueries jc =? 0); fields;
    destruct (jobs.IntervalMs (jobs.Basic jc) =? 0); fields;
    cbv [jobs.call_Start jobs.emit jobs.get_err jobs.return_
         jobs.PanicHandler jobs.cancel jobs.next jobs.bind];
    fields;
    match goal with |- context [Start ?c] => destruct (Start c) end;
    reflexivity.
Qed.

(** Every call ends in one of three ways: the decode failed, the root
    domain or the seeds are missing, or the engine was started once. *)
Lemma job_cases (g : jobs.GlobalConfig) (args : Args) :
  (exists e, job g args =
             {| jobs.data := None; jobs.err := Some e;
                jobs.trace := [jobs.EvCancel] |})
  \/ (exists cfg, dnsblast.ClientID cfg = jobs.ClientID g
                  /\ job g args = engine_run cfg).
Proof.
  destruct (Decode args) as [jc | cause] eqn:H.
  - destruct (string_dec (jobs.RootDomain jc) "") as [Hr | Hr].
    + left. eexists. apply job_no_root with (jc := jc); assumption.
    + destruct (jobs.SeedDomains jc) as [| s l] eqn:Hs.
      * left. eexists. apply job_no_seeds with (jc := jc); assumption.
      * right. eexists. split;
          [| apply job_reaches_engine with (jc := jc);
             [assumption | assumption | rewrite Hs; discriminate]].
        reflexivity.
  - left. eexists. exact (job_undecodable g args cause H).
Qed.

Lemma calls_engine_run (cfg : dnsblast.Config) : calls (engine_run cfg) = [cfg].
Proof. now destruct (Start cfg). Qed.

(** A protocol outside the recognized set goes through to the engine as it
    is: the switch has no case that stops it. *)
Lemma unrecognized_protocol_reaches_engine
      (g : jobs.GlobalConfig) (args : Args) (jc : jobs.dnsBlastConfig) :
  Decode args = inl jc ->
  jobs.RootDomain jc <> "" ->
  jobs.SeedDomains jc <> [] ->
  jobs.Protocol jc <> "" ->
  map dnsblast.Protocol (calls (job g args)) = [jobs.Protocol jc].
Proof.
  intros H Hr Hs Hp.
  rewrite (job_reaches_engine g args jc H Hr Hs), calls_engine_run.
  cbn [map dnsblast.Protocol].
  destruct (String.eqb_spec (jobs.Protocol jc) ""); [contradiction | reflexivity].
Qed.

(** C2. When the decoded configuration has an empty root domain or an empty
    list of seed domains, the call returns a nil payload and a non-nil
    configuration error (the message for the missing field), and the engine
    is never started: the only thing the call does is the deferred
    cancel. *)
Theorem C2_missing_root_or_seeds_is_config_error
        (g : jobs.GlobalConfig) (args : Args) (jc : jobs.dnsBlastConfig) :
  Decode args = inl jc ->
  jobs.RootDomain jc = "" \/ jobs.SeedDomains jc = [] ->
  jobs.data (job g args) = None
  /\ (jobs.err (job g args) =
        Some (New "no root domain provided, consider adding it")
      \/ jobs.err (job g args) =
         Some (New "no seed domains provided, at least one is required"))
  /\ jobs.err (job g args) <> None
  /\ jobs.trace (job g args) = [jobs.EvCancel]
  /\ calls (job g args) = [].
Proof.
  intros H Hmissing.
  destruct (string_dec (jobs.RootDomain jc) "") as [Hr | Hr].
  - rewrite (job_no_root g args jc H Hr). cbn.
    repeat split; auto; discriminate.
  - destruct Hmissing as [Hr' | Hs]; [contradiction |].
    rewrite (job_no_seeds g args jc H Hr Hs). cbn.
    repeat split; auto; discriminate.
Qed.

(** C3 (amended). When the decoded configuration has [parallel_queries]
    equal to zero, every configuration the engine is started with has
    parallelism 5; and when the root domain and the seeds are present the
    engine is started, exactly once. *)
Theorem C3_zero_parallelism_defaulted
        (g : jobs.GlobalConfig) (args : Args) (jc : jobs.dnsBlastConfig) :
  Decode args = inl jc ->
  jobs.ParallelQueries jc = 0 ->
  Forall (fun cfg => dnsblast.ParallelQueries cfg = 5) (calls (job g args))
  /\ (jobs.RootDomain jc <> "" -> jobs.SeedDomains jc <> [] ->
      map dnsblast.ParallelQueries (calls (job g args)) = [5]).
Proof.
  intros H Hz.
  assert (Hrun : jobs.RootDomain jc <> "" -> jobs.SeedDomains jc <> [] ->
                 map dnsblast.ParallelQueries (calls (job g args)) = [5]).
  { intros Hr Hs.
    rewrite (job_reaches_engine g args jc H Hr Hs), calls_engine_run.
    cbn [map dnsblast.ParallelQueries]. now rewrite Hz. }
  split; [| exact Hrun].
  destruct (string_dec (jobs.RootDomain jc) "") as [Hr | Hr].
  - rewrite (job_no_root g args jc H Hr). constructor.
  - destruct (jobs.SeedDomains jc) as [| s l] eqn:Hs.
    + rewrite (job_no_seeds g args jc H Hr Hs). constructor.
    + assert (Hne : s :: l <> []) by discriminate.
      specialize (Hrun Hr Hne).
      rewrite (job_reaches_engine g args jc H Hr) in * by now rewrite Hs.
      rewrite calls_engine_run in *. cbn [map] in Hrun.
      constructor; [congruence | constructor].
Qed.

(** C4. For a configuration with a root domain and seeds in which protocol,
    [parallel_queries] and [interval_ms] are all unset, the engine is
    started once, with protocol [udp], parallelism 5 and a delay of 10
    milliseconds (10,000,000 ns), which is not zero. *)
Theorem C4_unset_fields_take_defaults
        (g : jobs.GlobalConfig) (args : Args) (jc : jobs.dnsBlastConfig) :
  Decode args = inl jc ->
  jobs.RootDomain jc <> "" ->
  jobs.SeedDomains jc <> [] ->
  jobs.Protocol jc = "" ->
  jobs.ParallelQueries jc = 0 ->
  jobs.IntervalMs (jobs.Basic jc) = 0 ->
  calls (job g args) =
    [{| dnsblast.RootDomain := jobs.RootDomain jc;
        dnsblast.Protocol := "udp";
        dnsblast.SeedDomains := jobs.SeedDomains jc;
        dnsblast.ParallelQueries := 5;
        dnsblast.Delay := 10 * time.Millisecond;
        dnsblast.ClientID := jobs.ClientID g |}]
  /\ Forall (fun cfg => dnsblast.Delay cfg <> 0) (calls (job g args)).
Proof.
  intros H Hr Hs Hp Hq Hi.
  rewrite (job_reaches_engine g args jc H Hr Hs), calls_engine_run.
  rewrite Hp, Hq, Hi. cbn [String.eqb Z.eqb].
  split; [reflexivity |].
  constructor; [| constructor]. cbn [dnsblast.Delay]. discriminate.
Qed.

(** C5. When decoding the arguments fails, the call returns a nil payload
    and a non-nil error that wraps the decode cause (the cause is what
    [Unwrap] gives, [errors.Is] finds it, and the message is the fixed
    prefix followed by the cause's message); the engine is not started and
    the result does not depend on anything but the cause. *)
Theorem C5_decode_failure_returns_wrapped_cause
        (g : jobs.GlobalConfig) (args : Args) (cause : error) :
  Decode args = inr cause ->
  exists e,
    job g args = {| jobs.data := None; jobs.err := Some e;
                    jobs.trace := [jobs.EvCancel] |}
    /\ Unwrap e = Some cause
    /\ Is e cause = true
    /\ Error e =
         "failed to parse DNS Blast job configurations: " ++ Error cause
    /\ calls (job g args) = [].
Proof.
  intro H. rewrite (job_undecodable g args cause H).
  eexists. split; [reflexivity |].
  repeat split. apply Is_Errorf_w.
Qed.

(** C8. Every configuration the engine is started with carries the client
    identifier of the global settings. *)
Theorem C8_client_id_propagated
        (g : jobs.GlobalConfig) (args : Args) (cfg : dnsblast.Config) :
  In cfg (calls (job g args)) ->
  dnsblast.ClientID cfg = jobs.ClientID g.
Proof.
  destruct (job_cases g args) as [[e ->] | [cfg' [Hid ->]]].
  - intros [].
  - rewrite calls_engine_run. intros [<- | []]. exact Hid.
Qed.

(** C9. The payload a call returns is nil, whatever the context, the global
    settings and the arguments, however the decoder and the engine behave:
    on the error returns, on normal completion and after a recovered
    fault. *)
Theorem C9_data_is_nil (g : jobs.GlobalConfig) (args : Args) :
  jobs.data (job g args) = None.
Proof.
  destruct (job_cases g args) as [[e ->] | [cfg [_ ->]]].
  - reflexivity.
  - now destruct (Start cfg).
Qed.

End DnsBlastJobFacts.

(** *** The job adapter on the scenarios *)

(** C1. The call on the configuration with protocol [bogus] (root domain
    and seeds present) returns no error: the engine is started with the
    protocol [bogus] and the defaults for the unset fields, and the call
    waits for it. *)
Theorem C1_bogus_protocol_starts_engine :
  jobs.dnsBlastJob (any := unit) scenario.decoded scenario.engine_ok
                   scenario.global scenario.bogus_protocol
  = {| jobs.data := None;
       jobs.err := None;
       jobs.trace :=
         [jobs.EvStart
            {| dnsblast.RootDomain := "example.test";
               dnsblast.Protocol := "bogus";
               dnsblast.SeedDomains := ["a"; "b"];
               dnsblast.ParallelQueries := 5;
               dnsblast.Delay := 10000000;
               dnsblast.ClientID := "client-42" |};
          jobs.EvWait; jobs.EvCancel] |}.
Proof. reflexivity. Qed.

Lemma C2_witness_no_root :
  jobs.trace
    (jobs.dnsBlastJob (any := unit) scenario.decoded scenario.engine_ok
                      scenario.global scenario.no_root)
  = [jobs.EvCancel].
Proof.
  apply (C2_missing_root_or_seeds_is_config_error
           unit _ scenario.decoded scenario.engine_ok
           scenario.global scenario.no_root scenario.no_root).
  - reflexivity.
  - left. reflexivity.
Defined.

(** C3, as stated, fails: a negative [parallel_queries] is not replaced,
    the engine is started with it. *)
Lemma C3_negative_parallelism_not_defaulted :
  jobs.ParallelQueries scenario.negative_parallelism <= 0
  /\ map dnsblast.ParallelQueries
         (jobs.engine_calls
            (jobs.trace
               (jobs.dnsBlastJob (any := unit) scenario.decoded
                                 scenario.engine_ok scenario.global
                                 scenario.negative_parallelism)))
     = [-1]
  /\ map dnsblast.ParallelQueries
         (jobs.engine_calls
            (jobs.trace
               (jobs.dnsBlastJob (any := unit) scenario.decoded
                                 scenario.engine_ok scenario.global
                                 scenario.negative_parallelism)))
     <> [jobs.defaultParallelQueriesPerCycle].
Proof.
  split; [cbn; lia |].
  split; [reflexivity | discriminate].
Qed.

Lemma C3_witness_zero_parallelism :
  map dnsblast.ParallelQueries
      (jobs.engine_calls
         (jobs.trace
            (jobs.dnsBlastJob (any := unit) scenario.decoded
                              scenario.engine_ok scenario.global
                              scenario.unset)))
  = [5].
Proof.
  apply (C3_zero_parallelism_defaulted
           unit _ scenario.decoded scenario.engine_ok
           scenario.global scenario.unset scenario.unset).
  - reflexivity.
  - reflexivity.
  - discriminate.
  - discriminate.
Defined.

Lemma C4_witness_scenario :
  jobs.engine_calls
    (jobs.trace
       (jobs.dnsBlastJob (any := unit) scenario.decoded scenario.engine_ok
                         scenario.global scenario.unset))
  = [{| dnsblast.RootDomain := "example.test";
        dnsblast.Protocol := "udp";
        dnsblast.SeedDomains := ["a"; "b"];
        dnsblast.ParallelQueries := 5;
        dnsblast.Delay := 10 * time.Millisecond;
        dnsblast.ClientID := "client-42" |}].
Proof.
  apply (C4_unset_fields_take_defaults
           unit _ scenario.decoded scenario.engine_ok
           scenario.global scenario.unset scenario.unset);
    try reflexivity; discriminate.
Defined.

Lemma C5_witness_undecodable :
  exists e,
    jobs.dnsBlastJob (any := unit)
                     (fun _ : unit => scenario.undecodable scenario.decode_cause)
                     scenario.engine_ok scenario.global tt
    = {| jobs.data := None; jobs.err := Some e;
         jobs.trace := [jobs.EvCancel] |}
    /\ Unwrap e = Some scenario.decode_cause.
Proof.
  destruct (C5_decode_failure_returns_wrapped_cause
              unit unit
              (fun _ : unit => scenario.undecodable scenario.decode_cause)
              scenario.engine_ok scenario.global tt scenario.decode_cause
              eq_refl)
    as [e [Hjob [Hunwrap _]]].
  exists e. split; assumption.
Defined.

Lemma C8_witness_client_id :
  dnsblast.ClientID
    {| dnsblast.RootDomain := "example.test";
       dnsblast.Protocol := "udp";
       dnsblast.SeedDomains := ["a"; "b"];
       dnsblast.ParallelQueries := 5;
       dnsblast.Delay := 10000000;
       dnsblast.ClientID := "client-42" |}
  = jobs.ClientID scenario.global.
Proof.
  apply (C8_client_id_propagated
           unit _ scenario.decoded scenario.engine_ok
           scenario.global scenario.unset).
  left. reflexivity.
Defined.

(** ** The raw connection provider *)

(** No error is its own cause: an error that is handed on as it is does not
    wrap itself. *)
Lemma Unwrap_irrefl (e : error) : Unwrap e <> Some e.
Proof.
  induction e as [s | msg cause IH]; simpl.
  - discriminate.
  - intro H. injection H as H. apply IH. rewrite H at 1. reflexivity.
Qed.

Section ProviderFacts.

Variable net_PacketConn : Type.
Variable ListenPacket : string -> string -> net_PacketConn + error.

Local Abbreviation open := (packetgen.OpenRawConnection net_PacketConn ListenPacket).

(** A failed [net.ListenPacket] is handed on: nil connection, the same
    error. *)
Lemma open_failure_passes_error
      (c : packetgen.ConnectionConfig) (err : error) :
  ListenPacket (packetgen.Name c) (packetgen.Address c) = inr err ->
  open c = (None, Some err).
Proof.
  intro H. unfold packetgen.OpenRawConnection. now rewrite H.
Qed.

Lemma open_error_iff (c : packetgen.ConnectionConfig) :
  snd (open c) <> None <->
  exists err, ListenPacket (packetgen.Name c) (packetgen.Address c) = inr err.
Proof.
  unfold packetgen.OpenRawConnection.
  destruct (ListenPacket (packetgen.Name c) (packetgen.Address c))
    as [packetConn | err]; cbn; split.
  - intro Hn. now elim Hn.
  - intros [err Herr]. discriminate.
  - intros _. now exists err.
  - discriminate.
Qed.

(** C7. When the underlying open succeeds, for any network name and any
    address (the empty one included), the provider returns no error and a
    non-nil handle: the opened socket wrapped by [ipv6.NewPacketConn].  One
    equation covers every network family. *)
Theorem C7_open_success_wraps_socket
        (c : packetgen.ConnectionConfig) (packetConn : net_PacketConn) :
  ListenPacket (packetgen.Name c) (packetgen.Address c) = inl packetConn ->
  open c = (Some (packetgen.NewPacketConn packetConn), None)
  /\ fst (open c) <> None.
Proof.
  intro H. unfold packetgen.OpenRawConnection. rewrite H.
  split; [reflexivity | discriminate].
Qed.

End ProviderFacts.

Section ConnectionErrorFacts.

Variable net_PacketConn : Type.
Variable sys_listen :
  string -> string -> net_PacketConn + (option string * error).

Local Abbreviation open_raw :=
  (packetgen.OpenRawConnection net_PacketConn
     (net.ListenPacket net_PacketConn sys_listen)).

(** C6. When the underlying socket cannot be opened, the provider returns
    a nil connection and one kind of error, the [listen] error of the
    network layer, which wraps the underlying error: [Unwrap] gives the
    underlying error, and [errors.Is] finds it and whatever it wraps in turn
    (the error number under a system call error).  The provider returns an
    error exactly when the underlying open fails. *)
Theorem C6_open_failure_returns_connection_error
        (c : packetgen.ConnectionConfig) :
  (forall la cause,
     sys_listen (packetgen.Name c) (packetgen.Address c) = inr (la, cause) ->
     exists e,
       open_raw c = (None, Some e)
       /\ e = net.OpError "listen" (packetgen.Name c) la cause
       /\ Unwrap e = Some cause
       /\ (forall detail, Is cause detail = true -> Is e detail = true))
  /\ (snd (open_raw c) <> None <->
      exists la cause,
        sys_listen (packetgen.Name c) (packetgen.Address c)
        = inr (la, cause)).
Proof.
  split.
  - intros la cause H.
    exists (net.OpError "listen" (packetgen.Name c) la cause).
    split; [| split; [reflexivity | split; [reflexivity |]]].
    + apply open_failure_passes_error. unfold net.ListenPacket. now rewrite H.
    + intros detail Hd. unfold net.OpError. simpl Is.
      rewrite Hd. apply orb_true_r.
  - rewrite open_error_iff. unfold net.ListenPacket.
    destruct (sys_listen (packetgen.Name c) (packetgen.Address c))
      as [packetConn | [la cause]]; split.
    + intros [err Herr]. discriminate.
    + intros (la & cause & H). discriminate.
    + intros _. now exists la, cause.
    + intros _. eexists. reflexivity.
Qed.

End ConnectionErrorFacts.

Lemma C6_witness_privilege_denied :
  exists e,
    packetgen.OpenRawConnection nat
      (net.ListenPacket nat scenario.listen_denied)
      (scenario.wildcard "ip4:udp")
    = (None, Some e)
    /\ Error e = "listen ip4:udp : socket: operation not permitted"
    /\ Unwrap e = Some (os.SyscallError "socket" scenario.EPERM)
    /\ Is e scenario.EPERM = true.
Proof.
  destruct (proj1 (C6_open_failure_returns_connection_error
                     nat scenario.listen_denied
                     (scenario.wildcard "ip4:udp"))
                  (Some "") (os.SyscallError "socket" scenario.EPERM)
                  eq_refl)
    as (e & Hopen & He & Hunwrap & Hdetail).
  exists e. split; [exact Hopen |].
  split; [rewrite He; reflexivity |].
  split; [exact Hunwrap |].
  apply Hdetail. reflexivity.
Defined.

Lemma C7_witness_wildcard_both_families :
  packetgen.OpenRawConnection nat scenario.ListenPacket_granted
                              (scenario.wildcard "ip4:udp")
  = (Some (packetgen.NewPacketConn 3%nat), None)
  /\ packetgen.OpenRawConnection nat scenario.ListenPacket_granted
                                 (scenario.wildcard "ip6:udp")
     = (Some (packetgen.NewPacketConn 3%nat), None).
Proof.
  split.
  - apply (C7_open_success_wraps_socket
             nat scenario.ListenPacket_granted
             (scenario.wildcard "ip4:udp") 3%nat).
    reflexivity.
  - apply (C7_open_success_wraps_socket
             nat scenario.ListenPacket_granted
             (scenario.wildcard "ip6:udp") 3%nat).
    reflexivity.
Defined.

(** ** [Restart] without a restart mechanism *)

(** Where the file is compiled, the operating system is none of linux,
    darwin and windows. *)
Lemma file_built_build_constraint (GOOS : string) :
  ota.file_built GOOS = true -> ota.build_constraint GOOS = true.
Proof.
  unfold ota.file_built, ota.build_constraint, ota.tag_holds.
  destruct (GOOS =? "linux")%string, (GOOS =? "darwin")%string,
           (GOOS =? "windows")%string; cbn; try reflexivity;
    intro H; try discriminate;
    repeat rewrite ?andb_false_r, ?andb_false_l in H; discriminate.
Qed.

(** C10. On every platform the build constraint admits (any other than
    linux, darwin and windows), for every list of extra arguments,
    [Restart] returns a non-nil error whose message names the running
    operating system, and has no effect on the process. *)
Theorem C10_restart_unavailable (GOOS : string) (extraArgs : list string) :
  ota.build_constraint GOOS = true ->
  exists e,
    fst (ota.Restart GOOS extraArgs) = Some e
    /\ Error e = "restart on the " ++ GOOS ++ " system is not available"
    /\ snd (ota.Restart GOOS extraArgs) = [].
Proof.
  intros _. eexists. repeat split.
Qed.

Lemma C10_witness_freebsd :
  exists e,
    fst (ota.Restart "freebsd" ["--restarted"]) = Some e
    /\ Error e = "restart on the freebsd system is not available"
    /\ snd (ota.Restart "freebsd" ["--restarted"]) = [].
Proof.
  apply (C10_restart_unavailable "freebsd" ["--restarted"]).
  reflexivity.
Defined.

(* ------------------------------------------------------------------ *)
(** * Further properties of the job adapter *)

(** ** 64-bit durations *)

Lemma wrap64_small (z : Z) :
  - 2 ^ 63 <= z < 2 ^ 63 -> time.wrap64 z = z.
Proof.
  intro H. unfold time.wrap64.
  rewrite Z.mod_small; lia.
Qed.

Lemma wrap64_zero_iff (z : Z) : time.wrap64 z = 0 <-> (2 ^ 64 | z).
Proof.
  unfold time.wrap64. split.
  - intro H.
    exists ((z + 2 ^ 63) / 2 ^ 64).
    pose proof (Z.div_mod (z + 2 ^ 63) (2 ^ 64)) as Hdm. lia.
  - intros [k ->].
    replace (k * 2 ^ 64 + 2 ^ 63) with (2 ^ 63 + k * 2 ^ 64) by lia.
    rewrite Z.mod_add by lia.
    rewrite Z.mod_small; lia.
Qed.

(** A product with one million is a multiple of [2 ^ 64] exactly when the
    other factor is a multiple of [2 ^ 58]: a million is [2 ^ 6 * 15625]. *)
Lemma million_divide (i : Z) :
  (2 ^ 64 | i * time.Millisecond) <-> (2 ^ 58 | i).
Proof.
  unfold time.Millisecond.
  replace (i * 1000000) with ((i * 15625) * 2 ^ 6) by lia.
  replace (2 ^ 64) with (2 ^ 58 * 2 ^ 6) by lia.
  rewrite Z.mul_divide_cancel_r by lia.
  split.
  - intro H. rewrite Z.mul_comm in H.
    apply Z.gauss in H; [exact H |].
    reflexivity.
  - intro H. now apply Z.divide_mul_l.
Qed.

(** ** Control flow of a call *)

Section DnsBlastJobFlow.

Variable any : Type.
Variable Args : Type.
Variable Decode : Args -> jobs.dnsBlastConfig + error.
Variable Start : dnsblast.Config -> dnsblast.StartResult.

Local Abbreviation job := (@jobs.dnsBlastJob any Args Decode Start).
Local Abbreviation calls f := (jobs.engine_calls (jobs.trace f)).
Local Abbreviation cases := (job_cases any Args Decode Start).
Local Abbreviation reaches := (job_reaches_engine any Args Decode Start).

(** The three shapes the trace of a call can have. *)
Lemma trace_shapes (g : jobs.GlobalConfig) (args : Args) :
  jobs.trace (job g args) = [jobs.EvCancel]
  \/ (exists cfg e,
        Start cfg = dnsblast.Returns e
        /\ jobs.err (job g args) = e
        /\ jobs.trace (job g args)
           = [jobs.EvStart cfg; jobs.EvWait; jobs.EvCancel])
  \/ (exists cfg,
        Start cfg = dnsblast.Panics
        /\ jobs.err (job g args) = None
        /\ jobs.trace (job g args)
           = [jobs.EvStart cfg; jobs.EvRecovered; jobs.EvCancel]).
Proof.
  destruct (cases g args) as [[e ->] | [cfg [_ ->]]].
  - left. reflexivity.
  - right. destruct (Start cfg) as [e |] eqn:Hs.
    + left. exists cfg, e. repeat split. exact Hs.
    + right. exists cfg. repeat split. exact Hs.
Qed.

(** X1. On every path (failed decode, missing field, engine returned,
    engine faulted) the deferred cancel of the derived context runs, once,
    and it is the last thing the call does. *)
Theorem X1_cancel_runs_last_exactly_once
        (g : jobs.GlobalConfig) (args : Args) :
  exists t,
    jobs.trace (job g args) = (t ++ [jobs.EvCancel])%list
    /\ ~ In jobs.EvCancel t.
Proof.
  destruct (trace_shapes g args)
    as [-> | [(cfg & e & _ & _ & ->) | (cfg & _ & _ & ->)]].
  - exists []. split; [reflexivity | intros []].
  - exists [jobs.EvStart cfg; jobs.EvWait]. split; [reflexivity |].
    intros [H | [H | []]]; discriminate.
  - exists [jobs.EvStart cfg; jobs.EvRecovered]. split; [reflexivity |].
    intros [H | [H | []]]; discriminate.
Qed.

(** X2. The engine is started exactly when the arguments decode to a
    configuration with a non-empty root domain and a non-empty seed list
    (whatever its protocol, parallelism and interval), and then it is
    started once. *)
Theorem X2_engine_started_iff_root_and_seeds
        (g : jobs.GlobalConfig) (args : Args) :
  (length (calls (job g args)) <= 1)%nat
  /\ (calls (job g args) <> [] <->
      exists jc, Decode args = inl jc
                 /\ jobs.RootDomain jc <> ""
                 /\ jobs.SeedDomains jc <> []).
Proof.
  split.
  - destruct (cases g args) as [[e ->] | [cfg [_ ->]]].
    + cbn. lia.
    + rewrite calls_engine_run. cbn. lia.
  - split.
    + intro Hcalls.
      destruct (Decode args) as [jc | cause] eqn:H.
      * exists jc. split; [reflexivity |].
        destruct (string_dec (jobs.RootDomain jc) "") as [Hr | Hr].
        { rewrite (job_no_root any Args Decode Start g args jc H Hr)
            in Hcalls.
          now elim Hcalls. }
        split; [exact Hr |].
        intro Hs.
        rewrite (job_no_seeds any Args Decode Start g args jc H Hr Hs)
          in Hcalls.
        now elim Hcalls.
      * rewrite (job_undecodable any Args Decode Start g args cause H)
          in Hcalls.
        now elim Hcalls.
    + intros (jc & H & Hr & Hs).
      rewrite (reaches g args jc H Hr Hs), calls_engine_run.
      discriminate.
Qed.

(** X3. The call waits on the wait group exactly when the engine was
    started and its start returned; after a fault of the engine the wait
    is skipped. *)
Theorem X3_wait_iff_engine_returned
        (g : jobs.GlobalConfig) (args : Args) :
  In jobs.EvWait (jobs.trace (job g args)) <->
  exists cfg e,
    calls (job g args) = [cfg] /\ Start cfg = dnsblast.Returns e.
Proof.
  destruct (trace_shapes g args)
    as [-> | [(cfg & e & Hs & _ & ->) | (cfg & Hs & _ & ->)]]; cbn; split.
  - intros [H | []]; discriminate.
  - intros (cfg & e & H & _). discriminate.
  - intros _. exists cfg, e. split; [reflexivity | exact Hs].
  - intros _. right. left. reflexivity.
  - intros [H | [H | [H | []]]]; discriminate.
  - intros (cfg' & e & H & Hs'). injection H as <-. congruence.
Qed.

(** X4. When the engine is started and its start returns, the error the
    call returns is the engine's, unchanged (nil included). *)
Theorem X4_engine_error_is_returned
        (g : jobs.GlobalConfig) (args : Args)
        (cfg : dnsblast.Config) (e : option error) :
  In cfg (calls (job g args)) ->
  Start cfg = dnsblast.Returns e ->
  jobs.err (job g args) = e.
Proof.
  intros Hin Hs.
  destruct (trace_shapes g args)
    as [Ht | [(cfg' & e' & Hs' & He & Ht) | (cfg' & Hs' & _ & Ht)]];
    rewrite Ht in Hin; cbn in Hin.
  - destruct Hin.
  - destruct Hin as [<- | []]. congruence.
  - destruct Hin as [<- | []]. congruence.
Qed.

(** X5. When the engine faults, the handler recovers, the wait is skipped,
    and the call returns a nil error: the fault is not reported to the
    caller. *)
Theorem X5_engine_fault_returns_nil_error
        (g : jobs.GlobalConfig) (args : Args) (cfg : dnsblast.Config) :
  In cfg (calls (job g args)) ->
  Start cfg = dnsblast.Panics ->
  jobs.err (job g args) = None
  /\ jobs.trace (job g args)
     = [jobs.EvStart cfg; jobs.EvRecovered; jobs.EvCancel].
Proof.
  intros Hin Hs.
  destruct (trace_shapes g args)
    as [Ht | [(cfg' & e' & Hs' & He & Ht) | (cfg' & Hs' & He & Ht)]];
    rewrite Ht in Hin; cbn in Hin.
  - destruct Hin.
  - destruct Hin as [<- | []]. congruence.
  - destruct Hin as [<- | []]. split; assumption.
Qed.

(** X6. A call that returns a nil error has started the engine: no path
    that stops before the engine reports success. *)
Theorem X6_nil_error_means_engine_started
        (g : jobs.GlobalConfig) (args : Args) :
  jobs.err (job g args) = None ->
  exists cfg, calls (job g args) = [cfg].
Proof.
  destruct (cases g args) as [[e ->] | [cfg [_ ->]]].
  - discriminate.
  - intros _. exists cfg. apply calls_engine_run.
Qed.

(** X7. With an empty seed list the message of the error names the missing
    field, and the root domain is checked first: the message is the root
    domain's when the root domain is empty too, the seeds' otherwise. *)
Theorem X7_missing_field_message
        (g : jobs.GlobalConfig) (args : Args) (jc : jobs.dnsBlastConfig) :
  Decode args = inl jc ->
  jobs.SeedDomains jc = [] ->
  option_map Error (jobs.err (job g args))
  = Some (if (jobs.RootDomain jc =? "")%string
          then "no root domain provided, consider adding it"
          else "no seed domains provided, at least one is required").
Proof.
  intros H Hs.
  destruct (String.eqb_spec (jobs.RootDomain jc) "") as [Hr | Hr].
  - now rewrite (job_no_root any Args Decode Start g args jc H Hr).
  - now rewrite (job_no_seeds any Args Decode Start g args jc H Hr Hs).
Qed.

(** ** The configuration handed to the engine *)

(** X8. The protocol handed to the engine is [udp] when the configured one
    is empty and the configured string itself otherwise: no protocol
    string, recognized or not, is changed or stopped. *)
Theorem X8_protocol_handed_to_engine
        (g : jobs.GlobalConfig) (args : Args) (jc : jobs.dnsBlastConfig) :
  Decode args = inl jc ->
  jobs.RootDomain jc <> "" ->
  jobs.SeedDomains jc <> [] ->
  map dnsblast.Protocol (calls (job g args))
  = [if (jobs.Protocol jc =? "")%string then "udp" else jobs.Protocol jc].
Proof.
  intros H Hr Hs.
  now rewrite (reaches g args jc H Hr Hs), calls_engine_run.
Qed.

(** X9. A non-zero [parallel_queries] is handed to the engine as it is; in
    particular the parallelism the engine gets is positive exactly when
    the configured one is zero or positive. *)
Theorem X9_nonzero_parallelism_unchanged
        (g : jobs.GlobalConfig) (args : Args) (jc : jobs.dnsBlastConfig) :
  Decode args = inl jc ->
  jobs.RootDomain jc <> "" ->
  jobs.SeedDomains jc <> [] ->
  (jobs.ParallelQueries jc <> 0 ->
   map dnsblast.ParallelQueries (calls (job g args))
   = [jobs.ParallelQueries jc])
  /\ (Forall (fun cfg => 0 < dnsblast.ParallelQueries cfg)
             (calls (job g args))
      <-> 0 <= jobs.ParallelQueries jc).
Proof.
  intros H Hr Hs.
  rewrite (reaches g args jc H Hr Hs), calls_engine_run.
  cbn [map dnsblast.ParallelQueries].
  unfold jobs.defaultParallelQueriesPerCycle.
  destruct (Z.eqb_spec (jobs.ParallelQueries jc) 0) as [Hz | Hz]; split.
  - intro Hn. contradiction.
  - split; [lia |]. intros _. constructor; [cbn; lia | constructor].
  - reflexivity.
  - split.
    + intro HF. inversion HF as [| c l Hpos _]. cbn in Hpos. lia.
    + intro Hpos. constructor; [cbn; lia | constructor].
Qed.

(** X10. The root domain and the seed list reach the engine as decoded:
    the adapter neither rewrites nor reorders them. *)
Theorem X10_targets_unchanged
        (g : jobs.GlobalConfig) (args : Args) (jc : jobs.dnsBlastConfig)
        (cfg : dnsblast.Config) :
  Decode args = inl jc ->
  In cfg (calls (job g args)) ->
  dnsblast.RootDomain cfg = jobs.RootDomain jc
  /\ dnsblast.SeedDomains cfg = jobs.SeedDomains jc.
Proof.
  intros H Hin.
  destruct (string_dec (jobs.RootDomain jc) "") as [Hr | Hr].
  { rewrite (job_no_root any Args Decode Start g args jc H Hr) in Hin.
    destruct Hin. }
  destruct (jobs.SeedDomains jc) as [| s l] eqn:Hs.
  { rewrite (job_no_seeds any Args Decode Start g args jc H Hr Hs) in Hin.
    destruct Hin. }
  rewrite (reaches g args jc H Hr) in Hin by (rewrite Hs; discriminate).
  rewrite calls_engine_run in Hin.
  destruct Hin as [<- | []]. cbn. split; [reflexivity | exact Hs].
Qed.

(** X11. For a non-zero [interval_ms] of at most 9,223,372,036,854 in
    absolute value the delay handed to the engine is that many
    milliseconds, exactly: it is not zero and has the sign of the interval
    (a negative interval gives a negative delay). *)
Theorem X11_delay_is_interval_in_range
        (g : jobs.GlobalConfig) (args : Args) (jc : jobs.dnsBlastConfig) :
  Decode args = inl jc ->
  jobs.RootDomain jc <> "" ->
  jobs.SeedDomains jc <> [] ->
  jobs.IntervalMs (jobs.Basic jc) <> 0 ->
  - 9223372036854 <= jobs.IntervalMs (jobs.Basic jc) <= 9223372036854 ->
  map dnsblast.Delay (calls (job g args))
  = [jobs.IntervalMs (jobs.Basic jc) * time.Millisecond]
  /\ Forall (fun cfg => dnsblast.Delay cfg <> 0
                        /\ (0 < dnsblast.Delay cfg
                            <-> 0 < jobs.IntervalMs (jobs.Basic jc)))
            (calls (job g args)).
Proof.
  intros H Hr Hs Hnz Hrange.
  rewrite (reaches g args jc H Hr Hs), calls_engine_run.
  cbn [map dnsblast.Delay].
  destruct (Z.eqb_spec (jobs.IntervalMs (jobs.Basic jc)) 0) as [Hz | _];
    [contradiction |].
  unfold time.Duration_ms.
  rewrite wrap64_small by (unfold time.Millisecond; lia).
  split; [reflexivity |].
  constructor; [| constructor].
  cbn [dnsblast.Delay]. unfold time.Millisecond. lia.
Qed.

(** X12. For a non-zero [interval_ms] the delay handed to the engine is
    zero exactly when the interval is a multiple of [2 ^ 58]: the product
    with the millisecond wraps around at 64 bits. *)
Theorem X12_delay_zero_iff_multiple_of_2_58
        (g : jobs.GlobalConfig) (args : Args) (jc : jobs.dnsBlastConfig) :
  Decode args = inl jc ->
  jobs.RootDomain jc <> "" ->
  jobs.SeedDomains jc <> [] ->
  jobs.IntervalMs (jobs.Basic jc) <> 0 ->
  (map dnsblast.Delay (calls (job g args)) = [0]
   <-> (2 ^ 58 | jobs.IntervalMs (jobs.Basic jc))).
Proof.
  intros H Hr Hs Hnz.
  rewrite (reaches g args jc H Hr Hs), calls_engine_run.
  cbn [map dnsblast.Delay].
  destruct (Z.eqb_spec (jobs.IntervalMs (jobs.Basic jc)) 0) as [Hz | _];
    [contradiction |].
  unfold time.Duration_ms.
  rewrite <- million_divide, <- wrap64_zero_iff.
  split; [intro E; now injection E | intros ->; reflexivity].
Qed.


End DnsBlastJobFlow.

(** *** The further properties on the scenarios *)

Lemma X4_witness_engine_error :
  jobs.err
    (jobs.dnsBlastJob (any := unit) scenario.decoded
       (fun _ => dnsblast.Returns (Some scenario.decode_cause))
       scenario.global scenario.unset)
  = Some scenario.decode_cause.
Proof.
  apply (X4_engine_error_is_returned
           unit _ scenario.decoded
           (fun _ => dnsblast.Returns (Some scenario.decode_cause))
           scenario.global scenario.unset
           {| dnsblast.RootDomain := "example.test";
              dnsblast.Protocol := "udp";
              dnsblast.SeedDomains := ["a"; "b"];
              dnsblast.ParallelQueries := 5;
              dnsblast.Delay := 10000000;
              dnsblast.ClientID := "client-42" |}).
  - left. reflexivity.
  - reflexivity.
Defined.

Lemma X5_witness_engine_fault :
  jobs.err
    (jobs.dnsBlastJob (any := unit) scenario.decoded scenario.engine_faulty
                      scenario.global scenario.unset)
  = None.
Proof.
  apply (X5_engine_fault_returns_nil_error
           unit _ scenario.decoded scenario.engine_faulty
           scenario.global scenario.unset
           {| dnsblast.RootDomain := "example.test";
              dnsblast.Protocol := "udp";
              dnsblast.SeedDomains := ["a"; "b"];
              dnsblast.ParallelQueries := 5;
              dnsblast.Delay := 10000000;
              dnsblast.ClientID := "client-42" |}).
  - left. reflexivity.
  - reflexivity.
Defined.

Lemma X6_witness_success :
  exists cfg,
    jobs.engine_calls
      (jobs.trace
         (jobs.dnsBlastJob (any := unit) scenario.decoded scenario.engine_ok
                           scenario.global scenario.unset))
    = [cfg].
Proof.
  apply (X6_nil_error_means_engine_started
           unit _ scenario.decoded scenario.engine_ok
           scenario.global scenario.unset).
  reflexivity.
Defined.

Lemma X7_witness_nothing_configured :
  option_map Error
    (jobs.err
       (jobs.dnsBlastJob (any := unit) scenario.decoded scenario.engine_ok
          scenario.global
          {| jobs.Basic := {| jobs.IntervalMs := 0 |};
             jobs.RootDomain := "";
             jobs.Protocol := "";
             jobs.SeedDomains := [];
             jobs.ParallelQueries := 0 |}))
  = Some "no root domain provided, consider adding it".
Proof.
  apply (X7_missing_field_message
           unit _ scenario.decoded scenario.engine_ok scenario.global
           {| jobs.Basic := {| jobs.IntervalMs := 0 |};
              jobs.RootDomain := "";
              jobs.Protocol := "";
              jobs.SeedDomains := [];
              jobs.ParallelQueries := 0 |}
           {| jobs.Basic := {| jobs.IntervalMs := 0 |};
              jobs.RootDomain := "";
              jobs.Protocol := "";
              jobs.SeedDomains := [];
              jobs.ParallelQueries := 0 |}).
  - reflexivity.
  - reflexivity.
Defined.

Lemma X8_witness_tcp_tls :
  map dnsblast.Protocol
      (jobs.engine_calls
         (jobs.trace
            (jobs.dnsBlastJob (any := unit) scenario.decoded
               scenario.engine_ok scenario.global
               (scenario.config "tcp-tls" 0 0))))
  = ["tcp-tls"].
Proof.
  apply (X8_protocol_handed_to_engine
           unit _ scenario.decoded scenario.engine_ok scenario.global
           (scenario.config "tcp-tls" 0 0) (scenario.config "tcp-tls" 0 0)).
  - reflexivity.
  - discriminate.
  - discriminate.
Defined.

Lemma X9_witness_three_workers :
  map dnsblast.ParallelQueries
      (jobs.engine_calls
         (jobs.trace
            (jobs.dnsBlastJob (any := unit) scenario.decoded
               scenario.engine_ok scenario.global
               (scenario.config "" 3 0))))
  = [3].
Proof.
  apply (X9_nonzero_parallelism_unchanged
           unit _ scenario.decoded scenario.engine_ok scenario.global
           (scenario.config "" 3 0) (scenario.config "" 3 0)).
  - reflexivity.
  - discriminate.
  - discriminate.
  - discriminate.
Defined.

Lemma X10_witness_targets :
  dnsblast.RootDomain
    {| dnsblast.RootDomain := "example.test";
       dnsblast.Protocol := "udp";
       dnsblast.SeedDomains := ["a"; "b"];
       dnsblast.ParallelQueries := 5;
       dnsblast.Delay := 10000000;
       dnsblast.ClientID := "client-42" |}
  = jobs.RootDomain scenario.unset.
Proof.
  apply (X10_targets_unchanged
           unit _ scenario.decoded scenario.engine_ok scenario.global
           scenario.unset scenario.unset).
  - reflexivity.
  - left. reflexivity.
Defined.

Lemma X11_witness_quarter_second :
  map dnsblast.Delay
      (jobs.engine_calls
         (jobs.trace
            (jobs.dnsBlastJob (any := unit) scenario.decoded
               scenario.engine_ok scenario.global
               (scenario.config "" 0 250))))
  = [250 * time.Millisecond].
Proof.
  apply (X11_delay_is_interval_in_range
           unit _ scenario.decoded scenario.engine_ok scenario.global
           (scenario.config "" 0 250) (scenario.config "" 0 250)).
  - reflexivity.
  - discriminate.
  - discriminate.
  - discriminate.
  - cbn. lia.
Defined.

Lemma X12_witness_wrapped_interval :
  map dnsblast.Delay
      (jobs.engine_calls
         (jobs.trace
            (jobs.dnsBlastJob (any := unit) scenario.decoded
               scenario.engine_ok scenario.global
               (scenario.config "" 0 (2 ^ 58)))))
  = [0].
Proof.
  apply (X12_delay_zero_iff_multiple_of_2_58
           unit _ scenario.decoded scenario.engine_ok scenario.global
           (scenario.config "" 0 (2 ^ 58)) (scenario.config "" 0 (2 ^ 58))).
  - reflexivity.
  - discriminate.
  - discriminate.
  - discriminate.
  - exists 1. reflexivity.
Defined.


(** ** Further properties of the connection provider *)

Section ProviderResult.

Variable net_PacketConn : Type.
Variable ListenPacket : string -> string -> net_PacketConn + error.

(** X14. The provider returns exactly one of its two results: either a
    connection and a nil error, or a nil connection and an error; never
    both and never neither. *)
Theorem X14_connection_xor_error (c : packetgen.ConnectionConfig) :
  fst (packetgen.OpenRawConnection net_PacketConn ListenPacket c) = None
  <-> snd (packetgen.OpenRawConnection net_PacketConn ListenPacket c)
      <> None.
Proof.
  unfold packetgen.OpenRawConnection.
  destruct (ListenPacket (packetgen.Name c) (packetgen.Address c)); cbn.
  - split; [discriminate | intro H; now elim H].
  - split; [discriminate | reflexivity].
Qed.

End ProviderResult.
